(** * Aerospace SDLC component dashboard ([sdlc_dashboard.py])

    A shallow embedding of the dashboard script: the static content
    store, the document writer, the spreadsheet builder, the three
    functions of the generated source file, and the two verification
    handlers, followed by the properties of the specification. *)

From Stdlib Require Import ZArith String Ascii List.
From stdpp Require Import base list gmap strings.

Set Warnings "-register-all".

Local Open Scope Z_scope.
Local Open Scope string_scope.
Local Open Scope list_scope.

(** ** Python values and exceptions *)

Module Py.

(** The fragment of Python values that the functions of the generated
    file can be handed: [None], booleans, integers, strings and lists. *)
Inductive value : Type :=
  | VNone
  | VBool (b : bool)
  | VInt (n : Z)
  | VStr (s : string)
  | VList (items : list value).

(** The exceptions the modelled statements can raise. *)
Inductive exn : Type :=
  | KeyError (key : string)
  | TypeError
  | IndexError
  | ValueError
  | FileNotFoundError.

(** One formatted string: literal text and interpolated values, the
    [{...}] holes of an f-string.  The rendering of a hole ([str] of the
    value) is kept symbolic. *)
Inductive piece : Type :=
  | Lit (text : string)
  | Interp (v : value).

Definition line : Type := list piece.

(** [needle in haystack] for two strings: [needle] occurs as a
    contiguous substring. *)
Fixpoint substring_of (needle haystack : string) : bool :=
  String.prefix needle haystack
  || match haystack with
     | EmptyString => false
     | String _ rest => substring_of needle rest
     end.

Definition is_str (s : string) (v : value) : bool :=
  match v with
  | VStr t => String.eqb s t
  | _ => false
  end.

(** [s in container] with a string on the left, as Python evaluates it:
    element equality on a list, substring search on a string, and a
    [TypeError] on a value that is not a container. *)
Definition str_in (s : string) (container : value) : exn + bool :=
  match container with
  | VList items => inr (existsb (is_str s) items)
  | VStr t => inr (substring_of s t)
  | VNone | VBool _ | VInt _ => inl TypeError
  end.

(** The items of an iterable, when every one of them is a string. *)
Fixpoint all_strs (items : list value) : option (list string) :=
  match items with
  | [] => Some []
  | VStr s :: rest => cons s <$> all_strs rest
  | _ :: _ => None
  end.

Fixpoint chars (s : string) : list string :=
  match s with
  | EmptyString => []
  | String c rest => String c EmptyString :: chars rest
  end.

(** [sep.join(iterable)]: the iterable is a list or a string (iterated
    character by character); an item that is not a string, or an
    argument that is not iterable, raises [TypeError]. *)
Definition str_join (sep : string) (iterable : value) : exn + string :=
  match iterable with
  | VList items =>
      match all_strs items with
      | Some strs => inr (String.concat sep strs)
      | None => inl TypeError
      end
  | VStr s => inr (String.concat sep (chars s))
  | VNone | VBool _ | VInt _ => inl TypeError
  end.

End Py.
Export Py.

(** ** The content store *)

Module Content.

(** The text of one artifact: plain text (requirements, design) or
    named sub-sections in order (test cases). *)
Inductive content : Type :=
  | Text (body : string)
  | Sections (parts : list (string * string)).

Definition dq : string := String "034"%char EmptyString.
Definition nl : string := String "010"%char EmptyString.
Definition unlines (ls : list string) : string := String.concat nl ls.

Definition OUTPUT_DIR : string := "sdlc_artifacts".

Definition REQ_DOC_NAME : string := "Aero_SRD_A999_FPLN.docx".
Definition DESIGN_DOC_NAME : string := "Aero_SDD_A999_FPLN.docx".
Definition CODE_FILE_NAME : string := "Aero_SRC_A999_FPLN.py".
Definition TEST_DOC_NAME : string := "Aero_TST_A999_FPLN.docx".
Definition TRACE_FILE_NAME : string := "Aero_A999_FPLN_Traceability.xlsx".

(** The text written to the source file. *)
Definition code_content : string :=
  unlines
    [ "";
      "# Aero_SRC_A999_FPLN.py";
      "";
      "def calculate_optimal_path(departure_waypoint, arrival_waypoint):";
      "    " +:+ dq +:+ dq +:+ dq;
      "    Code ID: SRC_A999_FPLN_001";
      "    Calculates the optimal flight path. This is a mock implementation.";
      "    " +:+ dq +:+ dq +:+ dq;
      "    print(f" +:+ dq +:+ "Calculating optimal path from {departure_waypoint} to {arrival_waypoint}..." +:+ dq +:+ ")";
      "    # In a real scenario, this would involve complex calculations.";
      "    optimal_path = [" +:+ dq +:+ "WPT_A" +:+ dq +:+ ", " +:+ dq +:+ "WPT_B" +:+ dq +:+ ", " +:+ dq +:+ "WPT_C" +:+ dq +:+ "] ";
      "    print(" +:+ dq +:+ "Path calculated successfully." +:+ dq +:+ ")";
      "    return optimal_path";
      "";
      "def validate_flight_plan(flight_plan):";
      "    " +:+ dq +:+ dq +:+ dq;
      "    Code ID: SRC_A999_FPLN_002";
      "    Validates a flight plan against regulations. This is a mock implementation.";
      "    " +:+ dq +:+ dq +:+ dq;
      "    print(f" +:+ dq +:+ "Validating flight plan: {flight_plan['id']}..." +:+ dq +:+ ")";
      "    # Mock validation logic";
      "    if " +:+ dq +:+ "NFZ_01" +:+ dq +:+ " in flight_plan['route']:";
      "        print(" +:+ dq +:+ "Validation Failed: Route intersects with a No-Fly Zone." +:+ dq +:+ ")";
      "        return False, [" +:+ dq +:+ "Violation: No-Fly Zone NFZ_01" +:+ dq +:+ "]";
      "    print(" +:+ dq +:+ "Flight plan is valid." +:+ dq +:+ ")";
      "    return True, []";
      "";
      "def get_route_weather(flight_path):";
      "    " +:+ dq +:+ dq +:+ dq;
      "    Code ID: SRC_A999_FPLN_003";
      "    Generates a weather summary for a route. This is a mock implementation.";
      "    " +:+ dq +:+ dq +:+ dq;
      "    print(f" +:+ dq +:+ "Fetching weather for route: {' -> '.join(flight_path)}..." +:+ dq +:+ ")";
      "    # Mock API call";
      "    weather_summary = {";
      "        " +:+ dq +:+ "temperature" +:+ dq +:+ ": " +:+ dq +:+ "Avg 5°C" +:+ dq +:+ ",";
      "        " +:+ dq +:+ "wind" +:+ dq +:+ ": " +:+ dq +:+ "25 kts from 270°" +:+ dq +:+ ",";
      "        " +:+ dq +:+ "hazards" +:+ dq +:+ ": " +:+ dq +:+ "Light turbulence expected near WPT_B" +:+ dq;
      "    }";
      "    print(" +:+ dq +:+ "Weather summary generated." +:+ dq +:+ ")";
      "    return weather_summary";
      "" ].

(** The dictionaries are association lists in source order: Python
    dictionaries iterate in insertion order, and the keys below are
    pairwise distinct. *)
Definition requirements_data : list (string * content) :=
  [ ("SRD_A999_FPLN_001",
     Text "The system shall be able to calculate the optimal flight path between two given waypoints, considering fuel efficiency.");
    ("SRD_A999_FPLN_002",
     Text "The system shall validate a given flight plan against standard aviation regulations and constraints (e.g., no-fly zones).");
    ("SRD_A999_FPLN_003",
     Text "The system shall be able to generate a weather summary for a given flight route, highlighting potential hazards like turbulence or icing conditions.") ].

Definition design_data : list (string * content) :=
  [ ("SDD_A999_FPLN_001",
     Text "A function `calculate_optimal_path` will be implemented using the A* search algorithm. It will take departure and arrival waypoints as input and return a sequence of coordinates representing the optimal path.");
    ("SDD_A999_FPLN_002",
     Text "A function `validate_flight_plan` will be created. It will accept a flight plan object and cross-reference its route with a database of known no-fly zones and regulatory altitude restrictions. It will return a boolean status and a list of violations.");
    ("SDD_A999_FPLN_003",
     Text "A function `get_route_weather` will be designed to interface with a meteorological API. It will take a flight path as input and query the API for weather data points along the route, compiling a summary report.") ].

Definition test_case_data : list (string * content) :=
  [ ("TST_A999_FPLN_001",
     Sections
       [ ("Objective",
          "Verify that the `calculate_optimal_path` function returns a valid path.");
         ("Steps",
          "1. Call the function with valid departure and arrival waypoints. 2. Check that the returned value is a list of strings.");
         ("Expected Result",
          "The function executes without errors and returns a list representing a flight path.") ]);
    ("TST_A999_FPLN_002",
     Sections
       [ ("Objective",
          "Verify that the `validate_flight_plan` function correctly identifies violations.");
         ("Steps",
          "1. Create a mock flight plan that passes through a known no-fly zone. 2. Call the function with this plan. 3. Check the return status and violation list.");
         ("Expected Result",
          "The function should return `False` and a list containing the specific no-fly zone violation.") ]);
    ("TST_A999_FPLN_003",
     Sections
       [ ("Objective",
          "Verify that the `get_route_weather` function returns a weather summary.");
         ("Steps",
          "1. Define a sample flight path. 2. Call the function with this path. 3. Check that the returned value is a dictionary containing weather information.");
         ("Expected Result",
          "The function returns a dictionary with keys like 'temperature', 'wind', and 'hazards'.") ]) ].

(** [list(d.keys())] *)
Definition keys {A} (d : list (string * A)) : list string := d.*1.

End Content.
Export Content.

(** ** Files, the page and the script's effects *)

Module Effects.

(** A word-processor document as the writer builds it: headings with
    their level and paragraphs, in order. *)
Inductive block : Type :=
  | Heading (text : string) (level : nat)
  | Paragraph (text : string).

Inductive cell : Type :=
  | CInt (n : Z)
  | CStr (s : string).

(** A worksheet: the header row and the data rows. *)
Record table : Type := Table {
  header : list string;
  rows : list (list cell)
}.

(** What the script stores under a path.  Contents are the logical
    ones (blocks, text, cells), not the bytes of the container
    formats; the stored form, with the time a container records when
    it is written, is [Disk.disk_file] below. *)
Inductive file : Type :=
  | Docx (body : list block)
  | Source (text : string)
  | Xlsx (sheet : table).

(** What the handlers and the verification section put on the page,
    in order of the calls.  The header drawn on every run (page
    configuration, title, introduction) and the layout of the
    verification section (its rule and its two columns) are not
    recorded. *)
Inductive widget : Type :=
  | Success (text : string)
  | Subheader (text : string)
  | Info (text : string)
  | Write (text : line)
  | Dataframe (t : table)
  | Code (log : list line).

(** The state a run of the script reads and changes: the files, the
    session flag [st.session_state.files_created], the text printed
    to [sys.stdout] and the widgets put on the page. *)
Record world : Type := World {
  fs : gmap string file;
  files_created : bool;
  stdout : list line;
  ui : list widget
}.

(** A statement either raises or yields a value, and changes the
    world up to that point. *)
Definition py (A : Type) : Type := world -> world * (exn + A).

#[export] Instance py_ret : MRet py := fun A x w => (w, inr x).
#[export] Instance py_bind : MBind py := fun A B f m w =>
  match m w with
  | (w', inr x) => f x w'
  | (w', inl e) => (w', inl e)
  end.

Definition lift {A} (r : exn + A) : py A := fun w => (w, r).

(** The value a statement returns (or the exception it raises) and
    the world it leaves. *)
Definition returned {A} (m : py A) (w : world) : exn + A := (m w).2.
Definition after {A} (m : py A) (w : world) : world := (m w).1.

Definition print (l : line) : py unit := fun w =>
  (World (fs w) (files_created w) (stdout w ++ [l]) (ui w), inr tt).

Definition show (x : widget) : py unit := fun w =>
  (World (fs w) (files_created w) (stdout w) (ui w ++ [x]), inr tt).

(** Writing a file creates it or replaces what was there.  The script
    creates the output directory when it starts, before any handler
    runs; directories and failing writes are not part of the model,
    and a path is the string as written, without normalisation.  The
    properties of the writers below are therefore stated for names
    and texts that the file system and the libraries accept
    ([Inputs.plain_name], [Inputs.plain_text]). *)
Definition write_file (path : string) (f : file) : py unit := fun w =>
  (World (<[path := f]> (fs w)) (files_created w) (stdout w) (ui w), inr tt).

Definition set_files_created (b : bool) : py unit := fun w =>
  (World (fs w) b (stdout w) (ui w), inr tt).

(** [sys.stdout = io.StringIO()]: printing starts from an empty
    buffer. *)
Definition capture_stdout : py unit := fun w =>
  (World (fs w) (files_created w) [] (ui w), inr tt).

(** A run of the script draws the page anew. *)
Definition clear_page : py unit := fun w =>
  (World (fs w) (files_created w) (stdout w) [], inr tt).

Definition getvalue : py (list line) := fun w => (w, inr (stdout w)).

(** [d[key]] on a dictionary with string keys. *)
Definition getitem {A} (d : gmap string A) (key : string) : exn + A :=
  match d !! key with
  | Some v => inr v
  | None => inl (KeyError key)
  end.

(** [l[i]] on a list, for an index that is not negative. *)
Definition index {A} (l : list A) (i : nat) : exn + A :=
  match l !! i with
  | Some v => inr v
  | None => inl IndexError
  end.

End Effects.
Export Effects.

(** ** The generated source file *)

Module Generated.

Definition calculate_optimal_path (departure_waypoint arrival_waypoint : value)
  : py (list string) :=
  print [Lit "Calculating optimal path from "; Interp departure_waypoint;
         Lit " to "; Interp arrival_waypoint; Lit "..."];;
  let optimal_path := ["WPT_A"; "WPT_B"; "WPT_C"] in
  print [Lit "Path calculated successfully."];;
  mret optimal_path.

Definition validate_flight_plan (flight_plan : gmap string value)
  : py (bool * list string) :=
  plan_id ← lift (getitem flight_plan "id");
  print [Lit "Validating flight plan: "; Interp plan_id; Lit "..."];;
  route ← lift (getitem flight_plan "route");
  hit ← lift (str_in "NFZ_01" route);
  if hit : bool then
    print [Lit "Validation Failed: Route intersects with a No-Fly Zone."];;
    mret (false, ["Violation: No-Fly Zone NFZ_01"])
  else
    print [Lit "Flight plan is valid."];;
    mret (true, []).

Definition get_route_weather (flight_path : value) : py (gmap string string) :=
  joined ← lift (str_join " -> " flight_path);
  print [Lit "Fetching weather for route: "; Lit joined; Lit "..."];;
  let weather_summary : gmap string string :=
    <["temperature" := "Avg 5°C"]>
      (<["wind" := "25 kts from 270°"]>
         (<["hazards" := "Light turbulence expected near WPT_B"]> ∅)) in
  print [Lit "Weather summary generated."];;
  mret weather_summary.

End Generated.
Export Generated.

(** ** Document writer and spreadsheet builder *)

Module Writer.

Definition ends_with_slash (s : string) : bool :=
  match last (chars s) with
  | Some c => String.eqb c "/"
  | None => false
  end.

(** [os.path.join(a, b)] with the POSIX separator. *)
Definition path_join (a b : string) : string :=
  if String.prefix "/" b then b
  else if String.eqb a "" || ends_with_slash a then a +:+ b
  else a +:+ "/" +:+ b.

(** The blocks added for one entry of the dictionary. *)
Definition item_blocks (item : string * content) : list block :=
  let '(item_id, content) := item in
  Heading ("ID: " +:+ item_id) 2
  :: match content with
     | Sections parts =>
         flat_map (fun '(key, value) => [Heading key 3; Paragraph value]) parts
     | Text body => [Paragraph body]
     end
  ++ [Paragraph ""].

Definition create_word_doc (filename title : string)
    (content_dict : list (string * content)) : py string :=
  let doc := Heading title 1 :: flat_map item_blocks content_dict in
  let filepath := path_join OUTPUT_DIR filename in
  write_file filepath (Docx doc);;
  mret filepath.

Definition create_code_file (filename content : string) : py string :=
  let filepath := path_join OUTPUT_DIR filename in
  write_file filepath (Source content);;
  mret filepath.

(** A data frame: its columns in order, each with its name and cells. *)
Definition DataFrame : Type := list (string * list cell).

Definition nrows (df : DataFrame) : nat :=
  match df with
  | [] => 0%nat
  | (_, col) :: _ => length col
  end.

(** [pd.DataFrame({...})]: the columns must all have the same length. *)
Definition new_frame (data : list (string * list cell)) : exn + DataFrame :=
  if forallb (fun c => Nat.eqb (length c.2) (nrows data)) data
  then inr data else inl ValueError.

Fixpoint replace_column (name : string) (col : list cell) (df : DataFrame)
  : DataFrame :=
  match df with
  | [] => []
  | (n, c) :: rest =>
      if String.eqb n name then (n, col) :: rest
      else (n, c) :: replace_column name col rest
  end.

(** [df[name] = col]: a list whose length is not the number of rows is
    refused; a new name adds a column at the end, an existing one
    replaces that column's cells. *)
Definition setitem (df : DataFrame) (name : string) (col : list cell)
  : exn + DataFrame :=
  match df with
  | [] => inr [(name, col)]
  | _ :: _ =>
      if Nat.eqb (length col) (nrows df) then
        inr (if existsb (String.eqb name) (keys df)
             then replace_column name col df
             else df ++ [(name, col)])
      else inl ValueError
  end.

Definition row_at (df : DataFrame) (i : nat) : list cell :=
  omap (fun c => c.2 !! i) df.

(** [df.to_excel(filepath, index=False)]: the column names, then one
    row per index. *)
Definition to_excel (df : DataFrame) (filepath : string) : py unit :=
  write_file filepath (Xlsx (Table (keys df) (row_at df <$> seq 0 (nrows df)))).

(** [pd.read_excel(path)], as far as the sheet goes. *)
Definition read_excel (path : string) : py table := fun w =>
  match fs w !! path with
  | Some (Xlsx t) => (w, inr t)
  | Some _ => (w, inl ValueError)
  | None => (w, inl FileNotFoundError)
  end.

Definition create_or_update_traceability_matrix : py string :=
  let filepath := path_join OUTPUT_DIR TRACE_FILE_NAME in
  df ← lift (new_frame
    [ ("Serial Number", [CInt 1; CInt 2; CInt 3]);
      ("Requirement Document Name", CStr <$> replicate 3 REQ_DOC_NAME);
      ("Requirement ID", CStr <$> keys requirements_data) ]);
  df ← lift (setitem df "Design Document Name" (CStr <$> replicate 3 DESIGN_DOC_NAME));
  df ← lift (setitem df "Design ID" (CStr <$> keys design_data));
  df ← lift (setitem df "Code File Name" (CStr <$> replicate 3 CODE_FILE_NAME));
  df ← lift (setitem df "Code ID"
    (CStr <$> ["SRC_A999_FPLN_001"; "SRC_A999_FPLN_002"; "SRC_A999_FPLN_003"]));
  df ← lift (setitem df "Test File Name" (CStr <$> replicate 3 TEST_DOC_NAME));
  df ← lift (setitem df "Test ID" (CStr <$> keys test_case_data));
  to_excel df filepath;;
  mret filepath.

End Writer.
Export Writer.

(** ** The dashboard's button handlers *)

Module Dashboard.

(** The embedding is typed, so the [isinstance] tests of the script on
    a value bound at a list or dictionary type hold by construction. *)
Definition isinstance_list {A} (_ : list A) : bool := true.
Definition isinstance_dict {A} (_ : gmap string A) : bool := true.

(** [key in d] on a dictionary. *)
Definition has_key {A} (key : string) (d : gmap string A) : bool :=
  bool_decide (is_Some (d !! key)).

(** The body of the "Generate All SDLC Artifacts" button. *)
Definition generate_all : py unit :=
  create_word_doc REQ_DOC_NAME "System Requirements Document (SRD)" requirements_data;;
  create_word_doc DESIGN_DOC_NAME "Software Design Document (SDD)" design_data;;
  create_code_file CODE_FILE_NAME code_content;;
  create_word_doc TEST_DOC_NAME "Test Case Document (TST)" test_case_data;;
  trace_path ← create_or_update_traceability_matrix;
  set_files_created true;;
  show (Success "All SDLC artifacts have been created successfully!");;
  show (Subheader "Generated Traceability Matrix");;
  df_trace ← read_excel trace_path;
  show (Dataframe df_trace).

(** The three functions a loaded module offers to the verifier. *)
Record py_module : Type := PyModule {
  mod_calculate_optimal_path : value -> value -> py (list string);
  mod_validate_flight_plan : gmap string value -> py (bool * list string);
  mod_get_route_weather : value -> py (gmap string string)
}.

(** The module that the text [code_content] defines. *)
Definition generated_code : py_module :=
  PyModule calculate_optimal_path validate_flight_plan get_route_weather.

Definition path_value (path : list string) : value := VList (VStr <$> path).

Definition ok : string := "✅ **Result:** ".
Definition ko : string := "❌ **Result:** ".

Section Verifiers.

(** The interpreter: what executing a source text as a module gives.
    It is the only way the script reaches code outside itself. *)
Variable exec_module : string -> exn + py_module.

(** Loading the generated file: the text stored at the code path is
    handed to the interpreter.  Only the read is modelled; the
    bytecode cache the loader may leave next to the source and
    whatever the top level of the module does when it is executed are
    outside the world. *)
Definition import_generated_code : py py_module := fun w =>
  match fs w !! path_join OUTPUT_DIR CODE_FILE_NAME with
  | Some (Source text) => (w, exec_module text)
  | Some _ => (w, inl ValueError)
  | None => (w, inl FileNotFoundError)
  end.

(** The body of the "Run Code against Requirements" button. *)
Definition run_code : py unit :=
  show (Info "Executing functions from `Aero_SRC_A999_FPLN.py`...");;
  generated_code ← import_generated_code;
  capture_stdout;;
  show (Write [Lit "**Verifying Req `SRD_A999_FPLN_001` with `calculate_optimal_path`:**"]);;
  path ← mod_calculate_optimal_path generated_code (VStr "JFK") (VStr "LAX");
  (if isinstance_list path && bool_decide (0 < length path)%nat then
     show (Write [Lit (ok +:+ "Success. Function returned a valid path: `");
                  Interp (path_value path); Lit "`"])
   else
     show (Write [Lit (ko +:+ "Failure. Function did not return a valid path.")]));;
  show (Write [Lit (nl +:+ "**Verifying Req `SRD_A999_FPLN_002` with `validate_flight_plan`:**")]);;
  let invalid_plan : gmap string value :=
    <["id" := VStr "FP001"]>
      (<["route" := VList [VStr "WPT_X"; VStr "NFZ_01"; VStr "WPT_Y"]]> ∅) in
  '(is_valid, violations) ← mod_validate_flight_plan generated_code invalid_plan;
  found ← (if negb is_valid
            then v0 ← lift (index violations 0);
                 mret (substring_of "No-Fly Zone" v0)
            else mret false);
  (if found : bool then
     v0 ← lift (index violations 0);
     show (Write [Lit (ok +:+ "Success. Function correctly identified the violation: `");
                  Interp (VStr v0); Lit "`"])
   else
     show (Write [Lit (ko +:+ "Failure. Function did not identify the violation correctly.")]));;
  show (Write [Lit (nl +:+ "**Verifying Req `SRD_A999_FPLN_003` with `get_route_weather`:**")]);;
  weather ← mod_get_route_weather generated_code (path_value path);
  (if isinstance_dict weather && has_key "hazards" weather then
     hazards ← lift (getitem weather "hazards");
     show (Write [Lit (ok +:+ "Success. Function returned a weather summary. Hazard found: `");
                  Interp (VStr hazards); Lit "`"])
   else
     show (Write [Lit (ko +:+ "Failure. Function did not return a valid weather summary.")]));;
  log ← getvalue;
  show (Code log).

(** The body of the "Run Test Cases against Requirements" button. *)
Definition run_test_cases : py unit :=
  show (Info "Simulating test case execution...");;
  show (Write [Lit "**Testing `TST_A999_FPLN_001`:**"]);;
  let path_result := ["WPT_A"; "WPT_B"; "WPT_C"] in
  (if isinstance_list path_result then
     show (Write [Lit (ok +:+ "PASSED. The function returned a list as expected.")])
   else
     show (Write [Lit (ko +:+ "FAILED.")]));;
  show (Write [Lit (nl +:+ "**Testing `TST_A999_FPLN_002`:**")]);;
  let '(valid_status, violation_list) := (false, ["Violation: No-Fly Zone NFZ_01"]) in
  found ← (if negb valid_status
            then v0 ← lift (index violation_list 0);
                 mret (substring_of "No-Fly Zone" v0)
            else mret false);
  (if found : bool then
     show (Write [Lit (ok +:+ "PASSED. The function correctly returned False and the violation.")])
   else
     show (Write [Lit (ko +:+ "FAILED.")]));;
  show (Write [Lit (nl +:+ "**Testing `TST_A999_FPLN_003`:**")]);;
  let weather_result : gmap string string := {["hazards" := "Light turbulence"]} in
  (if isinstance_dict weather_result && has_key "hazards" weather_result then
     show (Write [Lit (ok +:+ "PASSED. The function returned a dictionary with the expected key.")])
   else
     show (Write [Lit (ko +:+ "FAILED.")])).

(** The button pressed in the run, if any. *)
Inductive click : Type :=
  | NoClick
  | ClickGenerate
  | ClickRunCode
  | ClickRunTests.

(** One run of the script, top to bottom, from an empty page.  The two
    verification buttons exist only once the session flag is set.
    The title and the introduction, drawn on every run, are not part
    of [ui] (see [widget]). *)
Definition script (c : click) : py unit :=
  clear_page;;
  (match c with ClickGenerate => generate_all | _ => mret tt end);;
  created ← (fun w => (w, inr (files_created w)));
  if created : bool then
    show (Subheader "Code Execution Verification");;
    (match c with ClickRunCode => run_code | _ => mret tt end);;
    show (Subheader "Test Case Execution Verification");;
    (match c with ClickRunTests => run_test_cases | _ => mret tt end)
  else mret tt.

End Verifiers.

End Dashboard.
Export Dashboard.

(** ** What a generation leaves on disk *)

Module Artifacts.

Definition req_path : string := path_join OUTPUT_DIR REQ_DOC_NAME.
Definition design_path : string := path_join OUTPUT_DIR DESIGN_DOC_NAME.
Definition code_path : string := path_join OUTPUT_DIR CODE_FILE_NAME.
Definition test_path : string := path_join OUTPUT_DIR TEST_DOC_NAME.
Definition trace_path : string := path_join OUTPUT_DIR TRACE_FILE_NAME.

(** The five files of one generation. *)
Definition output_files : list string :=
  [req_path; design_path; code_path; test_path; trace_path].

Definition code_ids : list string :=
  ["SRC_A999_FPLN_001"; "SRC_A999_FPLN_002"; "SRC_A999_FPLN_003"].

(** The traceability row at position [i]: the serial number and the
    identifiers found at that position of the four lists. *)
Definition trace_row (i : nat) : list cell :=
  [ CInt (Z.of_nat i + 1);
    CStr REQ_DOC_NAME; CStr (nth i (keys requirements_data) "");
    CStr DESIGN_DOC_NAME; CStr (nth i (keys design_data) "");
    CStr CODE_FILE_NAME; CStr (nth i code_ids "");
    CStr TEST_DOC_NAME; CStr (nth i (keys test_case_data) "") ].

Definition trace_table : table :=
  Table
    [ "Serial Number"; "Requirement Document Name"; "Requirement ID";
      "Design Document Name"; "Design ID"; "Code File Name"; "Code ID";
      "Test File Name"; "Test ID" ]
    (trace_row <$> [0; 1; 2]%nat).

Definition word_doc (title : string) (d : list (string * content)) : file :=
  Docx (Heading title 1 :: flat_map item_blocks d).

(** The files after a generation that started from the files [old]. *)
Definition generated_files (old : gmap string file) : gmap string file :=
  <[trace_path := Xlsx trace_table]>
    (<[test_path := word_doc "Test Case Document (TST)" test_case_data]>
       (<[code_path := Source code_content]>
          (<[design_path := word_doc "Software Design Document (SDD)" design_data]>
             (<[req_path := word_doc "System Requirements Document (SRD)" requirements_data]>
                old)))).

(** The flight path made of the given waypoint names. *)
Definition flight_path (waypoints : list string) : value := path_value waypoints.

(** The plan handed to [validate_flight_plan] by the code verifier. *)
Definition invalid_plan : gmap string value :=
  <["id" := VStr "FP001"]>
    (<["route" := VList [VStr "WPT_X"; VStr "NFZ_01"; VStr "WPT_Y"]]> ∅).

(** A plan whose route crosses the zone and that carries no ['id']. *)
Definition plan_without_id : gmap string value :=
  {["route" := VList [VStr "NFZ_01"]]}.

(** A plan whose route stays clear of the zone. *)
Definition clear_plan : gmap string value :=
  <["id" := VStr "FP002"]> (<["route" := VList [VStr "WPT_X"; VStr "WPT_Y"]]> ∅).

Definition empty_world : world := World ∅ false [] [].

(** The outcome that reports a violation: status [False] and a list
    whose first message names the zone [marker]. *)
Definition reports_violation (marker : string)
    (r : exn + (bool * list string)) : Prop :=
  exists (violations : list string) (message : string),
    r = inr (false, violations)
    /\ violations !! 0%nat = Some message
    /\ substring_of marker message = true.

(** What the page shows after a press on the test-case button. *)
Definition test_case_page : list widget :=
  [ Subheader "Code Execution Verification";
    Subheader "Test Case Execution Verification";
    Info "Simulating test case execution...";
    Write [Lit "**Testing `TST_A999_FPLN_001`:**"];
    Write [Lit (ok +:+ "PASSED. The function returned a list as expected.")];
    Write [Lit (nl +:+ "**Testing `TST_A999_FPLN_002`:**")];
    Write [Lit (ok +:+ "PASSED. The function correctly returned False and the violation.")];
    Write [Lit (nl +:+ "**Testing `TST_A999_FPLN_003`:**")];
    Write [Lit (ok +:+ "PASSED. The function returned a dictionary with the expected key.")] ].

(** The result lines of a page: those that open with the success or
    the failure mark. *)
Definition is_verdict (x : widget) : bool :=
  match x with
  | Write (Lit text :: _) => String.prefix ok text || String.prefix ko text
  | _ => false
  end.

Definition verdicts (page : list widget) : list widget :=
  List.filter is_verdict page.

(** What the generated functions print during the code verification. *)
Definition code_log : list line :=
  [ [Lit "Calculating optimal path from "; Interp (VStr "JFK"); Lit " to ";
     Interp (VStr "LAX"); Lit "..."];
    [Lit "Path calculated successfully."];
    [Lit "Validating flight plan: "; Interp (VStr "FP001"); Lit "..."];
    [Lit "Validation Failed: Route intersects with a No-Fly Zone."];
    [Lit "Fetching weather for route: "; Lit "WPT_A -> WPT_B -> WPT_C"; Lit "..."];
    [Lit "Weather summary generated."] ].

(** What the page shows after a press on the code button, when the
    three checks succeed. *)
Definition code_page : list widget :=
  [ Subheader "Code Execution Verification";
    Info "Executing functions from `Aero_SRC_A999_FPLN.py`...";
    Write [Lit "**Verifying Req `SRD_A999_FPLN_001` with `calculate_optimal_path`:**"];
    Write [Lit (ok +:+ "Success. Function returned a valid path: `");
           Interp (VList [VStr "WPT_A"; VStr "WPT_B"; VStr "WPT_C"]); Lit "`"];
    Write [Lit (nl +:+ "**Verifying Req `SRD_A999_FPLN_002` with `validate_flight_plan`:**")];
    Write [Lit (ok +:+ "Success. Function correctly identified the violation: `");
           Interp (VStr "Violation: No-Fly Zone NFZ_01"); Lit "`"];
    Write [Lit (nl +:+ "**Verifying Req `SRD_A999_FPLN_003` with `get_route_weather`:**")];
    Write [Lit (ok +:+ "Success. Function returned a weather summary. Hazard found: `");
           Interp (VStr "Light turbulence expected near WPT_B"); Lit "`"];
    Code code_log;
    Subheader "Test Case Execution Verification" ].

End Artifacts.
Export Artifacts.

(** ** Observations on documents, pages and loaded modules *)

Module Observations.

(** The texts of the headings of one level, in document order. *)
Definition headings_at (level : nat) (doc : list block) : list string :=
  flat_map (fun b => match b with
                     | Heading text l => if Nat.eqb l level then [text] else []
                     | Paragraph _ => []
                     end) doc.

(** The texts of the paragraphs, in document order. *)
Definition paragraphs (doc : list block) : list string :=
  flat_map (fun b => match b with
                     | Heading _ _ => []
                     | Paragraph text => [text]
                     end) doc.

(** The names of the sub-sections of one entry. *)
Definition section_names (item : string * content) : list string :=
  match item.2 with
  | Sections parts => keys parts
  | Text _ => []
  end.

(** The texts of one entry, sub-section by sub-section. *)
Definition item_texts (item : string * content) : list string :=
  match item.2 with
  | Sections parts => parts.*2
  | Text body => [body]
  end.

(** The blocks [create_word_doc] adds for the sub-sections of a
    test-case entry. *)
Definition section_blocks (parts : list (string * string)) : list block :=
  flat_map (fun '(key, value) => [Heading key 3; Paragraph value]) parts.

(** The outcome of each result line of a page: [true] for a line that
    opens with the success mark, [false] for the failure mark. *)
Definition verdict_marks (page : list widget) : list bool :=
  flat_map (fun x => match x with
                     | Write (Lit text :: _) =>
                         if String.prefix ok text then [true]
                         else if String.prefix ko text then [false]
                         else []
                     | _ => []
                     end) page.


(** A value [' -> '.join] accepts: a string, or a list of strings. *)
Definition is_str_sequence (v : value) : bool :=
  match v with
  | VStr _ => true
  | VList items =>
      forallb (fun item => match item with VStr _ => true | _ => false end) items
  | VNone | VBool _ | VInt _ => false
  end.

(** The dictionary [get_route_weather] builds. *)
Definition weather_summary : gmap string string :=
  <["temperature" := "Avg 5°C"]>
    (<["wind" := "25 kts from 270°"]>
       (<["hazards" := "Light turbulence expected near WPT_B"]> ∅)).

(** Two plans with the same route and different other entries. *)
Definition plan_a : gmap string value :=
  <["id" := VStr "FP010"]> (<["route" := VList [VStr "WPT_X"]]> ∅).
Definition plan_b : gmap string value :=
  <["id" := VInt 11]>
    (<["route" := VList [VStr "WPT_X"]]> (<["alt" := VInt 350]> ∅)).

(** An interpreter that accepts no source text, and one that gives
    every text the module embedded above. *)
Definition failing_interpreter (_ : string) : exn + py_module := inl ValueError.
Definition faithful_interpreter (_ : string) : exn + py_module := inr generated_code.

End Observations.
Export Observations.

(** ** What the libraries leave on disk *)

Module Disk.

(** The stored form of a file.  The source file is written as plain
    text.  The document and the spreadsheet libraries write zip
    containers, and a container records the time at which it was
    written: [written_at] is that time, in the container's own
    resolution, and [payload] the content handed to the library. *)
Inductive disk_file : Type :=
  | Raw (text : string)
  | Archive (written_at : Z) (payload : file).

Definition save_at (now : Z) (f : file) : disk_file :=
  match f with
  | Source text => Raw text
  | Docx _ | Xlsx _ => Archive now f
  end.

Definition payload_of (d : disk_file) : file :=
  match d with
  | Raw text => Source text
  | Archive _ f => f
  end.

(** The disk after a press on the generate button at time [now]: the
    output files the handler wrote, stored at that time, over what
    the disk held. *)
Definition disk_after_generation (exec_module : string -> exn + py_module)
    (now : Z) (disk : gmap string disk_file) : gmap string disk_file :=
  let w := after (script exec_module ClickGenerate)
                 (World (payload_of <$> disk) false [] []) in
  (save_at now <$> filter (fun entry => entry.1 ∈ output_files) (fs w)) ∪ disk.

(** The four container files among the five output files. *)
Definition container_files : list string :=
  [req_path; design_path; test_path; trace_path].

End Disk.
Export Disk.

(** ** Inputs the writers accept *)

Module Inputs.

(** A printable ASCII character, and a text made of such characters:
    what the document library takes without complaint. *)
Definition printable (c : ascii) : bool :=
  (32 <=? nat_of_ascii c)%nat && (nat_of_ascii c <=? 126)%nat.

Definition plain_text (s : string) : bool :=
  forallb printable (list_ascii_of_string s).


(** A file name that names a file directly inside the output
    directory: printable, not empty, not [.] or [..], without a
    separator, and of at most 255 characters. *)
Definition plain_name (s : string) : bool :=
  plain_text s
  && negb (String.eqb s "") && negb (String.eqb s ".") && negb (String.eqb s "..")
  && negb (existsb (Ascii.eqb "/") (list_ascii_of_string s))
  && (String.length s <=? 255)%nat.

(** An entry whose identifier and texts are plain. *)
Definition plain_entry (item : string * content) : bool :=
  plain_text item.1
  && match item.2 with
     | Text body => plain_text body
     | Sections parts =>
         forallb (fun part => plain_text part.1 && plain_text part.2) parts
     end.

(** The world after some lines were printed. *)
Definition add_log (l : list line) (w : world) : world :=
  World (fs w) (files_created w) (stdout w ++ l) (ui w).

(** A call that prints the lines [l], returns [x] and does nothing
    else, from any world. *)
Definition prints_and_returns {A} (m : py A) (l : list line) (x : A) : Prop :=
  forall w, m w = (add_log l w, inr x).

(** What the three generated functions print on the verifier's calls. *)
Definition path_log : list line :=
  [ [Lit "Calculating optimal path from "; Interp (VStr "JFK"); Lit " to ";
     Interp (VStr "LAX"); Lit "..."];
    [Lit "Path calculated successfully."] ].
Definition plan_log : list line :=
  [ [Lit "Validating flight plan: "; Interp (VStr "FP001"); Lit "..."];
    [Lit "Validation Failed: Route intersects with a No-Fly Zone."] ].
Definition weather_log : list line :=
  [ [Lit "Fetching weather for route: "; Lit "WPT_A -> WPT_B -> WPT_C"; Lit "..."];
    [Lit "Weather summary generated."] ].

(** A store that holds the generated source text at the code path. *)
Definition code_only : gmap string file := {[code_path := Source code_content]}.

End Inputs.
Export Inputs.

(** * Properties *)

(** ** Running statements *)

Section Running.

Context {A B : Type}.

Lemma bind_value (m : py A) (f : A -> py B) (w w' : world) (x : A) :
  m w = (w', inr x) -> (m ≫= f) w = f x w'.
Proof. intros Hm. unfold mbind, py_bind. now rewrite Hm. Qed.

Lemma bind_raise (m : py A) (f : A -> py B) (w w' : world) (e : exn) :
  m w = (w', inl e) -> (m ≫= f) w = (w', inl e).
Proof. intros Hm. unfold mbind, py_bind. now rewrite Hm. Qed.

End Running.

(** ** Artifact generation *)

Section Generation.

Lemma create_word_doc_run (filename title : string)
    (d : list (string * content)) (w : world) :
  create_word_doc filename title d w =
  (World (<[path_join OUTPUT_DIR filename := word_doc title d]> (fs w))
         (files_created w) (stdout w) (ui w),
   inr (path_join OUTPUT_DIR filename)).
Proof. reflexivity. Qed.

Lemma create_code_file_run (filename text : string) (w : world) :
  create_code_file filename text w =
  (World (<[path_join OUTPUT_DIR filename := Source text]> (fs w))
         (files_created w) (stdout w) (ui w),
   inr (path_join OUTPUT_DIR filename)).
Proof. reflexivity. Qed.

Lemma traceability_run (w : world) :
  create_or_update_traceability_matrix w =
  (World (<[trace_path := Xlsx trace_table]> (fs w))
         (files_created w) (stdout w) (ui w),
   inr trace_path).
Proof. reflexivity. Qed.

Lemma read_excel_written (path : string) (t : table) (w : world) :
  fs w !! path = Some (Xlsx t) -> read_excel path w = (w, inr t).
Proof. intros Hp. unfold read_excel. now rewrite Hp. Qed.

Lemma generate_all_run (w : world) :
  generate_all w =
  (World (generated_files (fs w)) true (stdout w)
         (ui w ++ [ Success "All SDLC artifacts have been created successfully!";
                    Subheader "Generated Traceability Matrix";
                    Dataframe trace_table ]),
   inr tt).
Proof.
  unfold generate_all.
  do 4 (erewrite bind_value; [| first [apply create_word_doc_run
                                       | apply create_code_file_run]]).
  erewrite bind_value by apply traceability_run.
  cbn [fs files_created stdout ui].
  fold req_path design_path code_path test_path.
  fold (generated_files (fs w)).
  assert (Htrace : generated_files (fs w) !! trace_path = Some (Xlsx trace_table))
    by apply lookup_insert_eq.
  revert Htrace. generalize (generated_files (fs w)). intros files Htrace.
  do 3 (erewrite bind_value by reflexivity).
  erewrite bind_value by (apply (read_excel_written _ trace_table); exact Htrace).
  cbn [fs files_created stdout ui]. unfold show. cbn [fs files_created stdout ui].
  now rewrite <- !app_assoc.
Qed.

Variable exec_module : string -> exn + py_module.

Lemma script_generate (w : world) :
  script exec_module ClickGenerate w =
  (World (generated_files (fs w)) true (stdout w)
         [ Success "All SDLC artifacts have been created successfully!";
           Subheader "Generated Traceability Matrix";
           Dataframe trace_table;
           Subheader "Code Execution Verification";
           Subheader "Test Case Execution Verification" ],
   inr tt).
Proof.
  unfold script.
  erewrite bind_value by reflexivity.
  erewrite bind_value by apply generate_all_run.
  reflexivity.
Qed.

Lemma generated_files_idem (old : gmap string file) :
  generated_files (generated_files old) = generated_files old.
Proof.
  apply map_eq. intros k. unfold generated_files.
  rewrite !lookup_insert. repeat case_decide; done.
Qed.

Lemma generated_files_cover (old : gmap string file) :
  Forall (fun p => is_Some (generated_files old !! p)) output_files.
Proof.
  unfold output_files, generated_files.
  repeat constructor; rewrite !lookup_insert;
    repeat (case_decide; [eauto |]); vm_compute in *; congruence.
Qed.

(** C1. A generation leaves a traceability sheet of exactly three rows;
    row [i] carries serial number [i + 1], the four fixed file names,
    and the requirement, design, code and test identifiers found at
    position [i] of their lists. *)
Theorem generation_traceability_rows (w : world) :
  returned (script exec_module ClickGenerate) w = inr tt
  /\ exists t : table,
       fs (after (script exec_module ClickGenerate) w) !! trace_path = Some (Xlsx t)
       /\ length (rows t) = 3%nat
       /\ rows t = trace_row <$> seq 0 3
       /\ rows t =
          [ [ CInt 1; CStr "Aero_SRD_A999_FPLN.docx"; CStr "SRD_A999_FPLN_001";
              CStr "Aero_SDD_A999_FPLN.docx"; CStr "SDD_A999_FPLN_001";
              CStr "Aero_SRC_A999_FPLN.py"; CStr "SRC_A999_FPLN_001";
              CStr "Aero_TST_A999_FPLN.docx"; CStr "TST_A999_FPLN_001" ];
            [ CInt 2; CStr "Aero_SRD_A999_FPLN.docx"; CStr "SRD_A999_FPLN_002";
              CStr "Aero_SDD_A999_FPLN.docx"; CStr "SDD_A999_FPLN_002";
              CStr "Aero_SRC_A999_FPLN.py"; CStr "SRC_A999_FPLN_002";
              CStr "Aero_TST_A999_FPLN.docx"; CStr "TST_A999_FPLN_002" ];
            [ CInt 3; CStr "Aero_SRD_A999_FPLN.docx"; CStr "SRD_A999_FPLN_003";
              CStr "Aero_SDD_A999_FPLN.docx"; CStr "SDD_A999_FPLN_003";
              CStr "Aero_SRC_A999_FPLN.py"; CStr "SRC_A999_FPLN_003";
              CStr "Aero_TST_A999_FPLN.docx"; CStr "TST_A999_FPLN_003" ] ].
Proof.
  unfold returned, after. rewrite script_generate. cbn [fst snd fs].
  split; [reflexivity |]. exists trace_table.
  split; [apply lookup_insert_eq |]. repeat split.
Qed.

(** The content handed to the libraries: a second generation succeeds
    like the first and hands over, for each of the five output files,
    what the first handed over. *)
Theorem generation_idempotent (w : world) :
  let w1 := after (script exec_module ClickGenerate) w in
  let w2 := after (script exec_module ClickGenerate) w1 in
  returned (script exec_module ClickGenerate) w = inr tt
  /\ returned (script exec_module ClickGenerate) w1 = inr tt
  /\ Forall (fun p => is_Some (fs w1 !! p) /\ fs w2 !! p = fs w1 !! p) output_files
  /\ fs w2 = fs w1.
Proof.
  cbv zeta. unfold returned, after. rewrite !script_generate. cbn [fst snd fs].
  rewrite generated_files_idem. repeat split.
  eapply Forall_impl; [apply generated_files_cover |].
  intros p Hp. split; [exact Hp | reflexivity].
Qed.

(** C6. The table written by [create_or_update_traceability_matrix] is
    the same whatever files, and whatever traceability file, the run
    finds: two runs from any two states write the same sheet. *)
Theorem traceability_ignores_prior_state (w w' : world) :
  returned create_or_update_traceability_matrix w = inr trace_path
  /\ returned create_or_update_traceability_matrix w' = inr trace_path
  /\ fs (after create_or_update_traceability_matrix w) !! trace_path
     = Some (Xlsx trace_table)
  /\ fs (after create_or_update_traceability_matrix w') !! trace_path
     = fs (after create_or_update_traceability_matrix w) !! trace_path.
Proof.
  unfold returned, after. rewrite !traceability_run. cbn [fst snd fs].
  rewrite !lookup_insert_eq. repeat split.
Qed.

End Generation.

(** ** Generating twice, as seen on disk *)

Section Regeneration.

Variable exec_module : string -> exn + py_module.

Lemma generated_files_output (old : gmap string file) (p : string) :
  p ∈ output_files -> generated_files old !! p = generated_files ∅ !! p.
Proof.
  unfold output_files. rewrite !elem_of_cons, elem_of_nil.
  unfold generated_files. rewrite !lookup_insert.
  intros [-> | [-> | [-> | [-> | [-> | []]]]]];
    repeat (case_decide; [reflexivity |]); congruence.
Qed.

Lemma disk_after_generation_lookup (now : Z) (disk : gmap string disk_file)
    (p : string) :
  disk_after_generation exec_module now disk !! p
  = if bool_decide (p ∈ output_files)
    then save_at now <$> generated_files ∅ !! p
    else disk !! p.
Proof.
  unfold disk_after_generation, after. rewrite script_generate. cbn [fst fs].
  rewrite lookup_union, lookup_fmap, map_lookup_filter.
  case_bool_decide as Hp.
  - rewrite (generated_files_output _ p Hp).
    pose proof (generated_files_cover ∅) as Hcover.
    rewrite Forall_forall in Hcover. destruct (Hcover p Hp) as [f Hf].
    rewrite Hf. cbn. rewrite option_guard_True by exact Hp. cbn.
    now destruct (disk !! p).
  - destruct (generated_files (payload_of <$> disk) !! p) as [f |]; cbn.
    + rewrite option_guard_False by exact Hp. cbn. now destruct (disk !! p).
    + now destruct (disk !! p).
Qed.

Lemma disk_lookup_output (now : Z) (disk : gmap string disk_file) (p : string) :
  p ∈ output_files ->
  disk_after_generation exec_module now disk !! p
  = save_at now <$> generated_files ∅ !! p.
Proof.
  intros Hp. rewrite disk_after_generation_lookup.
  now rewrite bool_decide_eq_true_2 by exact Hp.
Qed.

Ltac in_outputs := unfold output_files; set_solver.

(** C5, as amended. A second generation stores, under each of the
    five output paths, the same content as the first (the same
    document blocks, source text and sheet), and the source file is
    the same on disk; each of the four container files (the three
    documents and the spreadsheet) is the same on disk exactly when
    the two runs wrote it at the same container time. *)
Theorem regeneration_content_and_containers
    (disk : gmap string disk_file) (t t' : Z) :
  let d1 := disk_after_generation exec_module t disk in
  let d2 := disk_after_generation exec_module t' d1 in
  Forall (fun p => is_Some (d1 !! p)
                   /\ payload_of <$> d2 !! p = payload_of <$> d1 !! p) output_files
  /\ d1 !! code_path = Some (Raw code_content)
  /\ d2 !! code_path = d1 !! code_path
  /\ Forall (fun p => d2 !! p = d1 !! p <-> t' = t) container_files.
Proof.
  cbv zeta. unfold container_files. split; [| split; [| split]].
  - rewrite Forall_forall. intros p Hp.
    rewrite !disk_lookup_output by exact Hp.
    pose proof (generated_files_cover ∅) as Hcover.
    rewrite Forall_forall in Hcover. destruct (Hcover p Hp) as [f Hf].
    rewrite Hf. split; [eexists; reflexivity |]. now destruct f.
  - rewrite disk_lookup_output by in_outputs. reflexivity.
  - rewrite !disk_lookup_output by in_outputs. reflexivity.
  - repeat (apply Forall_cons_2;
              [rewrite !disk_lookup_output by in_outputs;
               split; [intros Heq; vm_compute in Heq; congruence
                      | intros ->; reflexivity] |]).
    apply Forall_nil_2.
Qed.

End Regeneration.

(** C5, as stated, fails: two generations from an empty disk, written
    at container times 0 and 1, leave different traceability files,
    so not every output file of the second run is identical to the
    first run's. *)
Lemma regeneration_changes_containers :
  let d1 := disk_after_generation failing_interpreter 0 ∅ in
  let d2 := disk_after_generation failing_interpreter 1 d1 in
  d1 !! trace_path = Some (Archive 0 (Xlsx trace_table))
  /\ d2 !! trace_path = Some (Archive 1 (Xlsx trace_table))
  /\ ~ Forall (fun p => d2 !! p = d1 !! p) output_files.
Proof.
  cbv zeta.
  assert (Hin : trace_path ∈ output_files) by (unfold output_files; set_solver).
  rewrite !(disk_lookup_output _ _ _ trace_path Hin).
  split; [reflexivity |]. split; [reflexivity |].
  intros Hall. rewrite Forall_forall in Hall.
  specialize (Hall trace_path Hin).
  rewrite !(disk_lookup_output _ _ _ trace_path Hin) in Hall.
  vm_compute in Hall. discriminate.
Qed.


(** ** The functions of the generated file *)

Section GeneratedCode.

Lemma calculate_optimal_path_run (departure arrival : value) (w : world) :
  returned (calculate_optimal_path departure arrival) w
  = inr ["WPT_A"; "WPT_B"; "WPT_C"].
Proof. reflexivity. Qed.

(** [validate_flight_plan] by cases on the two lookups and on the
    membership test. *)
Lemma validate_flight_plan_returned (plan : gmap string value) (w : world) :
  returned (validate_flight_plan plan) w =
  match plan !! "id" with
  | None => inl (KeyError "id")
  | Some _ =>
      match plan !! "route" with
      | None => inl (KeyError "route")
      | Some route =>
          match str_in "NFZ_01" route with
          | inl e => inl e
          | inr true => inr (false, ["Violation: No-Fly Zone NFZ_01"])
          | inr false => inr (true, [])
          end
      end
  end.
Proof.
  unfold returned, validate_flight_plan, mbind, py_bind, lift, getitem.
  destruct (plan !! "id") as [plan_id |]; [| reflexivity]. cbn.
  destruct (plan !! "route") as [route |]; [| reflexivity]. cbn.
  destruct (str_in "NFZ_01" route) as [e | []]; reflexivity.
Qed.

Ltac absurd_case :=
  match goal with
  | H : _ \/ _ |- _ => destruct H; discriminate
  | H : ex _ |- _ => destruct H; discriminate
  | H : is_Some None |- _ => destruct H; discriminate
  end.

Lemma str_in_not_KeyError (s : string) (container : value) (k : string) :
  str_in s container <> inl (KeyError k).
Proof. destruct container; discriminate. Qed.

Lemma all_strs_of_strings (strs : list string) :
  all_strs (VStr <$> strs) = Some strs.
Proof.
  induction strs as [| s strs IH]; [reflexivity |].
  cbn. now rewrite IH.
Qed.

Lemma get_route_weather_returned (path : value) (w : world) :
  returned (get_route_weather path) w =
  match str_join " -> " path with
  | inl e => inl e
  | inr _ =>
      inr (<["temperature" := "Avg 5°C"]>
             (<["wind" := "25 kts from 270°"]>
                (<["hazards" := "Light turbulence expected near WPT_B"]> ∅)))
  end.
Proof.
  unfold returned, get_route_weather, mbind, py_bind, lift.
  destruct (str_join " -> " path); reflexivity.
Qed.

(** Outside the inputs of the claims below: a route that is not a
    container and a path with an item that is not a string make the
    membership test and the join raise. *)
Example route_not_a_container :
  returned (validate_flight_plan
              (<["id" := VStr "FP003"]> (<["route" := VInt 5]> ∅))) empty_world
  = inl TypeError.
Proof. reflexivity. Qed.

Example path_item_not_a_string :
  returned (get_route_weather (VList [VStr "WPT_A"; VInt 1])) empty_world
  = inl TypeError.
Proof. reflexivity. Qed.

Example path_given_as_a_string :
  stdout (after (get_route_weather (VStr "AB")) empty_world)
  = [ [Lit "Fetching weather for route: "; Lit "A -> B"; Lit "..."];
      [Lit "Weather summary generated."] ].
Proof. reflexivity. Qed.

(** C2. [calculate_optimal_path("JFK", "LAX")] returns a list that is
    not empty, so the verifier's test on it succeeds. *)
Theorem optimal_path_JFK_LAX_nonempty (w : world) :
  exists path : list string,
    returned (calculate_optimal_path (VStr "JFK") (VStr "LAX")) w = inr path
    /\ path <> []
    /\ isinstance_list path && bool_decide (0 < length path)%nat = true.
Proof.
  exists ["WPT_A"; "WPT_B"; "WPT_C"]. rewrite calculate_optimal_path_run.
  repeat split. discriminate.
Qed.

(** C9. [calculate_optimal_path] returns the list
    ["WPT_A", "WPT_B", "WPT_C"] for every departure and arrival, so two
    calls with different waypoints return equal results. *)
Theorem optimal_path_ignores_waypoints
    (departure arrival departure' arrival' : value) (w w' : world) :
  returned (calculate_optimal_path departure arrival) w
  = inr ["WPT_A"; "WPT_B"; "WPT_C"]
  /\ returned (calculate_optimal_path departure arrival) w
     = returned (calculate_optimal_path departure' arrival') w'.
Proof. now rewrite !calculate_optimal_path_run. Qed.

(** C3, as amended. For a flight plan that has an ['id'] entry and
    whose route contains "NFZ_01", [validate_flight_plan] returns
    [False] with the one message "Violation: No-Fly Zone NFZ_01",
    which contains the marker. *)
Theorem marker_route_is_rejected
    (plan : gmap string value) (plan_id route : value) (w : world) :
  plan !! "id" = Some plan_id ->
  plan !! "route" = Some route ->
  str_in "NFZ_01" route = inr true ->
  returned (validate_flight_plan plan) w
  = inr (false, ["Violation: No-Fly Zone NFZ_01"])
  /\ reports_violation "NFZ_01" (returned (validate_flight_plan plan) w).
Proof.
  intros Hid Hroute Hin.
  rewrite validate_flight_plan_returned, Hid, Hroute, Hin.
  split; [reflexivity |].
  exists ["Violation: No-Fly Zone NFZ_01"], "Violation: No-Fly Zone NFZ_01".
  repeat split.
Qed.

Lemma marker_route_is_rejected_witness :
  invalid_plan !! "id" = Some (VStr "FP001")
  /\ invalid_plan !! "route" = Some (VList [VStr "WPT_X"; VStr "NFZ_01"; VStr "WPT_Y"])
  /\ str_in "NFZ_01" (VList [VStr "WPT_X"; VStr "NFZ_01"; VStr "WPT_Y"]) = inr true
  /\ reports_violation "NFZ_01" (returned (validate_flight_plan invalid_plan) empty_world).
Proof.
  split; [reflexivity |]. split; [reflexivity |]. split; [reflexivity |].
  apply (marker_route_is_rejected invalid_plan (VStr "FP001")
           (VList [VStr "WPT_X"; VStr "NFZ_01"; VStr "WPT_Y"]) empty_world);
    reflexivity.
Defined.

(** C3, as stated, fails: the plan {'route': ["NFZ_01"]} has a route
    that contains the marker, and the call raises [KeyError('id')]
    instead of reporting the violation. *)
Lemma marker_route_without_id_raises :
  plan_without_id !! "route" = Some (VList [VStr "NFZ_01"])
  /\ str_in "NFZ_01" (VList [VStr "NFZ_01"]) = inr true
  /\ returned (validate_flight_plan plan_without_id) empty_world = inl (KeyError "id")
  /\ ~ reports_violation "NFZ_01"
        (returned (validate_flight_plan plan_without_id) empty_world).
Proof.
  split; [reflexivity |]. split; [reflexivity |]. split; [reflexivity |].
  intros (violations & message & Hret & _). vm_compute in Hret. discriminate.
Qed.

(** C8. For a flight plan with ['id'] and ['route'] entries whose route
    does not contain "NFZ_01", [validate_flight_plan] returns [True]
    with an empty list of violations. *)
Theorem clear_route_is_accepted
    (plan : gmap string value) (plan_id route : value) (w : world) :
  plan !! "id" = Some plan_id ->
  plan !! "route" = Some route ->
  str_in "NFZ_01" route = inr false ->
  returned (validate_flight_plan plan) w = inr (true, []).
Proof.
  intros Hid Hroute Hin.
  now rewrite validate_flight_plan_returned, Hid, Hroute, Hin.
Qed.

Lemma clear_route_is_accepted_witness :
  clear_plan !! "id" = Some (VStr "FP002")
  /\ clear_plan !! "route" = Some (VList [VStr "WPT_X"; VStr "WPT_Y"])
  /\ str_in "NFZ_01" (VList [VStr "WPT_X"; VStr "WPT_Y"]) = inr false
  /\ returned (validate_flight_plan clear_plan) empty_world = inr (true, []).
Proof.
  split; [reflexivity |]. split; [reflexivity |]. split; [reflexivity |].
  apply (clear_route_is_accepted clear_plan (VStr "FP002")
           (VList [VStr "WPT_X"; VStr "WPT_Y"]) empty_world);
    reflexivity.
Defined.

(** C10. [validate_flight_plan] looks up ['id'] and then ['route'] on
    every call: it raises a [KeyError] exactly when the plan lacks one
    of the two keys (for the first key that is missing), and a call
    that returns was given a plan with both. *)
Theorem validate_flight_plan_key_lookup (plan : gmap string value) (w : world) :
  ((plan !! "id" = None \/ plan !! "route" = None)
   <-> exists k, returned (validate_flight_plan plan) w = inl (KeyError k))
  /\ (plan !! "id" = None ->
      returned (validate_flight_plan plan) w = inl (KeyError "id"))
  /\ (is_Some (plan !! "id") -> plan !! "route" = None ->
      returned (validate_flight_plan plan) w = inl (KeyError "route"))
  /\ ((exists r, returned (validate_flight_plan plan) w = inr r) ->
      is_Some (plan !! "id") /\ is_Some (plan !! "route")).
Proof.
  rewrite validate_flight_plan_returned.
  destruct (plan !! "id") as [plan_id |];
    [destruct (plan !! "route") as [route |] |].
  - pose proof (str_in_not_KeyError "NFZ_01" route) as Hno.
    repeat split; intros; try discriminate; eauto; try absurd_case.
    exfalso.
    match goal with Hkey : ex _ |- _ => destruct Hkey as [k Hk] end.
    destruct (str_in "NFZ_01" route) as [e | []]; try discriminate.
    apply (Hno k). congruence.
  - repeat split; intros; try discriminate; eauto; try absurd_case.
  - repeat split; intros; try discriminate; eauto; try absurd_case.
Qed.

(** C4. For every flight path, a list of waypoint names,
    [get_route_weather] returns a dictionary that has the key
    'hazards'. *)
Theorem route_weather_has_hazards (waypoints : list string) (w : world) :
  exists weather : gmap string string,
    returned (get_route_weather (flight_path waypoints)) w = inr weather
    /\ is_Some (weather !! "hazards")
    /\ isinstance_dict weather && has_key "hazards" weather = true.
Proof.
  rewrite get_route_weather_returned. unfold flight_path, path_value.
  cbn [str_join]. rewrite all_strs_of_strings.
  eexists. split; [reflexivity |]. split; [| reflexivity].
  now vm_compute; eauto.
Qed.

End GeneratedCode.

(** ** The two verifiers *)

Section Verification.

Lemma run_test_cases_run (w : world) :
  run_test_cases w =
  (World (fs w) (files_created w) (stdout w)
         (ui w ++ drop 2 test_case_page),
   inr tt).
Proof.
  assert (Hkey : has_key "hazards"
            ({["hazards" := "Light turbulence"]} : gmap string string) = true)
    by reflexivity.
  destruct w as [files created out page].
  unfold run_test_cases. rewrite Hkey.
  cbv -[app]. rewrite <- !app_assoc. reflexivity.
Qed.

(** C7. A press on the test-case button shows PASSED for the three
    test cases whatever the interpreter would make of the generated
    file and whatever the files hold: the page is the same for any two
    interpreters and any two file stores, and the run neither reads
    nor changes a file. *)
Theorem test_cases_pass_without_running_code
    (exec_module exec_module' : string -> exn + py_module)
    (files files' : gmap string file) (out out' : list line)
    (page page' : list widget) :
  let w := World files true out page in
  let w' := World files' true out' page' in
  returned (script exec_module ClickRunTests) w = inr tt
  /\ ui (after (script exec_module ClickRunTests) w) = test_case_page
  /\ ui (after (script exec_module' ClickRunTests) w')
     = ui (after (script exec_module ClickRunTests) w)
  /\ fs (after (script exec_module ClickRunTests) w) = files
  /\ verdicts (ui (after (script exec_module ClickRunTests) w))
     = [ Write [Lit (ok +:+ "PASSED. The function returned a list as expected.")];
         Write [Lit (ok +:+ "PASSED. The function correctly returned False and the violation.")];
         Write [Lit (ok +:+ "PASSED. The function returned a dictionary with the expected key.")] ].
Proof. cbv zeta. repeat split. Qed.

(** X9. With an interpreter that gives the text [code_content] the three
    functions embedded above, the code verifier run after a generation
    reports success on each of its three checks. *)
Lemma run_code_run
    (exec_module : string -> exn + py_module)
    (files : gmap string file) (created : bool) (out : list line) :
  files !! code_path = Some (Source code_content) ->
  exec_module code_content = inr generated_code ->
  run_code exec_module
    (World files created out [Subheader "Code Execution Verification"])
  = (World files created code_log (firstn 9 code_page), inr tt).
Proof.
  intros Hfile Hexec.
  unfold run_code.
  erewrite bind_value by reflexivity.
  erewrite (bind_value (import_generated_code _)).
  2: { unfold import_generated_code. cbn [fs].
       change (path_join OUTPUT_DIR CODE_FILE_NAME) with code_path.
       rewrite Hfile, Hexec. reflexivity. }
  vm_compute. reflexivity.
Qed.

Lemma script_run_code
    (exec_module : string -> exn + py_module)
    (files : gmap string file) (out : list line) (page : list widget) :
  files !! code_path = Some (Source code_content) ->
  exec_module code_content = inr generated_code ->
  script exec_module ClickRunCode (World files true out page)
  = (World files true code_log code_page, inr tt).
Proof.
  intros Hfile Hexec. unfold script.
  do 3 (erewrite bind_value by reflexivity). cbv beta iota. cbn [files_created].
  erewrite bind_value by reflexivity.
  erewrite bind_value by (apply run_code_run; assumption).
  reflexivity.
Qed.

Lemma code_verification_succeeds
    (exec_module : string -> exn + py_module) (w : world) :
  exec_module code_content = inr generated_code ->
  let w1 := after (script exec_module ClickGenerate) w in
  returned (script exec_module ClickRunCode) w1 = inr tt
  /\ ui (after (script exec_module ClickRunCode) w1) = code_page.
Proof.
  intros Hexec. cbv zeta.
  unfold after, returned. rewrite !script_generate. cbn [fst snd].
  rewrite script_run_code; [split; reflexivity | | exact Hexec].
  unfold generated_files.
  do 2 (rewrite lookup_insert_ne by (vm_compute; congruence)).
  apply lookup_insert_eq.
Qed.

End Verification.

(** * Further properties of the code *)

(** ** The document writer and the source writer *)

Section Writers.

Lemma headings_at_app (level : nat) (a b : list block) :
  headings_at level (a ++ b) = headings_at level a ++ headings_at level b.
Proof. unfold headings_at. apply flat_map_app. Qed.

Lemma paragraphs_app (a b : list block) :
  paragraphs (a ++ b) = paragraphs a ++ paragraphs b.
Proof. unfold paragraphs. apply flat_map_app. Qed.

Lemma section_blocks_outline (parts : list (string * string)) :
  headings_at 1 (section_blocks parts) = []
  /\ headings_at 2 (section_blocks parts) = []
  /\ headings_at 3 (section_blocks parts) = keys parts
  /\ paragraphs (section_blocks parts) = parts.*2.
Proof.
  induction parts as [| [key value] parts (IH1 & IH2 & IH3 & IHp)];
    [repeat split |].
  change (section_blocks ((key, value) :: parts))
    with ([Heading key 3; Paragraph value] ++ section_blocks parts).
  rewrite !headings_at_app, paragraphs_app, IH1, IH2, IH3, IHp.
  repeat split.
Qed.

Lemma item_blocks_outline (item : string * content) :
  headings_at 1 (item_blocks item) = []
  /\ headings_at 2 (item_blocks item) = ["ID: " +:+ item.1]
  /\ headings_at 3 (item_blocks item) = section_names item
  /\ paragraphs (item_blocks item) = item_texts item ++ [""].
Proof.
  destruct item as [item_id [body | parts]]; [repeat split |].
  destruct (section_blocks_outline parts) as (H1 & H2 & H3 & Hp).
  change (item_blocks (item_id, Sections parts))
    with ([Heading ("ID: " +:+ item_id) 2]
          ++ section_blocks parts ++ [Paragraph ""]).
  rewrite !headings_at_app, !paragraphs_app, H1, H2, H3, Hp.
  unfold section_names, item_texts. cbn [fst snd].
  repeat split. cbn. now rewrite app_nil_r.
Qed.

Lemma document_outline (d : list (string * content)) :
  headings_at 1 (flat_map item_blocks d) = []
  /\ headings_at 2 (flat_map item_blocks d)
     = (fun item_id => "ID: " +:+ item_id) <$> keys d
  /\ headings_at 3 (flat_map item_blocks d) = flat_map section_names d
  /\ paragraphs (flat_map item_blocks d)
     = flat_map (fun item => item_texts item ++ [""]) d.
Proof.
  induction d as [| item d (IH1 & IH2 & IH3 & IHp)]; [repeat split |].
  destruct (item_blocks_outline item) as (H1 & H2 & H3 & Hp).
  cbn [flat_map].
  rewrite !headings_at_app, paragraphs_app, H1, H2, H3, Hp, IH1, IH2, IH3, IHp.
  repeat split.
Qed.

Lemma path_join_plain (name : string) :
  plain_name name = true ->
  path_join OUTPUT_DIR name = "sdlc_artifacts/" +:+ name.
Proof.
  unfold plain_name. rewrite !Bool.andb_true_iff, !Bool.negb_true_iff.
  intros (((((_ & _) & _) & _) & Hsep) & _).
  unfold path_join.
  destruct name as [| c rest]; [reflexivity |].
  cbn in Hsep. apply Bool.orb_false_iff in Hsep as [Hc _].
  cbn [String.prefix].
  destruct (Ascii.ascii_dec "/" c) as [<- | Hne]; [discriminate Hc |].
  reflexivity.
Qed.

Lemma path_join_plain_inj (a b : string) :
  plain_name a = true -> plain_name b = true ->
  path_join OUTPUT_DIR a = path_join OUTPUT_DIR b -> a = b.
Proof.
  intros Ha Hb. rewrite !path_join_plain by assumption.
  cbn. intros Heq. now simplify_eq.
Qed.

(** X1. With the output directory in place (the script creates it
    when it starts), for a plain file name, a plain title and a
    dictionary whose identifiers and texts are plain, the document that
    [create_word_doc] stores under the path it returns has the title
    as its only level-1 heading, one level-2 heading "ID: <id>" per
    entry of the dictionary, in the dictionary's order, and as level-3
    headings the sub-section names of the entries, in order (none for
    an entry with plain text). *)
Theorem create_word_doc_outline (filename title : string)
    (content_dict : list (string * content)) (w : world) :
  plain_name filename = true ->
  plain_text title = true ->
  forallb plain_entry content_dict = true ->
  exists (filepath : string) (doc : list block),
    returned (create_word_doc filename title content_dict) w = inr filepath
    /\ filepath = "sdlc_artifacts/" +:+ filename
    /\ fs (after (create_word_doc filename title content_dict) w) !! filepath
       = Some (Docx doc)
    /\ headings_at 1 doc = [title]
    /\ headings_at 2 doc = (fun item_id => "ID: " +:+ item_id) <$> keys content_dict
    /\ headings_at 3 doc = flat_map section_names content_dict.
Proof.
  intros Hname _ _.
  exists (path_join OUTPUT_DIR filename),
         (Heading title 1 :: flat_map item_blocks content_dict).
  unfold returned, after. rewrite create_word_doc_run. cbn [fst snd fs].
  destruct (document_outline content_dict) as (H1 & H2 & H3 & _).
  split; [reflexivity |]. split; [now apply path_join_plain |].
  split; [apply lookup_insert_eq |].
  change (Heading title 1 :: flat_map item_blocks content_dict)
    with ([Heading title 1] ++ flat_map item_blocks content_dict).
  rewrite !headings_at_app, H1, H2, H3. repeat split.
Qed.

(** X2. With the output directory in place, for a plain file name,
    a plain title and a dictionary whose identifiers and texts are
    plain, the paragraphs of the stored document are, entry by entry, the texts of the entry (the body of a
    plain entry, or the texts of its sub-sections in order) followed
    by one empty paragraph. *)
Theorem create_word_doc_paragraphs (filename title : string)
    (content_dict : list (string * content)) (w : world) :
  plain_name filename = true ->
  plain_text title = true ->
  forallb plain_entry content_dict = true ->
  exists doc : list block,
    fs (after (create_word_doc filename title content_dict) w)
      !! ("sdlc_artifacts/" +:+ filename) = Some (Docx doc)
    /\ paragraphs doc = flat_map (fun item => item_texts item ++ [""]) content_dict.
Proof.
  intros Hname _ _.
  exists (Heading title 1 :: flat_map item_blocks content_dict).
  unfold after. rewrite create_word_doc_run. cbn [fst fs].
  destruct (document_outline content_dict) as (_ & _ & _ & Hp).
  rewrite <- (path_join_plain filename Hname).
  split; [apply lookup_insert_eq |].
  change (Heading title 1 :: flat_map item_blocks content_dict)
    with ([Heading title 1] ++ flat_map item_blocks content_dict).
  now rewrite paragraphs_app, Hp.
Qed.


End Writers.

Lemma create_word_doc_outline_witness :
  plain_name "notes.docx" = true
  /\ plain_text "Notes" = true
  /\ forallb plain_entry test_case_data = true
  /\ exists (filepath : string) (doc : list block),
       returned (create_word_doc "notes.docx" "Notes" test_case_data) empty_world
       = inr filepath
       /\ filepath = "sdlc_artifacts/notes.docx"
       /\ fs (after (create_word_doc "notes.docx" "Notes" test_case_data) empty_world)
            !! filepath = Some (Docx doc)
       /\ headings_at 1 doc = ["Notes"]
       /\ headings_at 2 doc
          = (fun item_id => "ID: " +:+ item_id) <$> keys test_case_data
       /\ headings_at 3 doc = flat_map section_names test_case_data.
Proof.
  split; [reflexivity |]. split; [reflexivity |]. split; [reflexivity |].
  apply (create_word_doc_outline "notes.docx" "Notes" test_case_data empty_world);
    reflexivity.
Defined.

Lemma create_word_doc_paragraphs_witness :
  plain_name "notes.docx" = true
  /\ plain_text "Notes" = true
  /\ forallb plain_entry requirements_data = true
  /\ exists doc : list block,
       fs (after (create_word_doc "notes.docx" "Notes" requirements_data) empty_world)
         !! "sdlc_artifacts/notes.docx" = Some (Docx doc)
       /\ paragraphs doc
          = flat_map (fun item => item_texts item ++ [""]) requirements_data.
Proof.
  split; [reflexivity |]. split; [reflexivity |]. split; [reflexivity |].
  apply (create_word_doc_paragraphs "notes.docx" "Notes" requirements_data
           empty_world); reflexivity.
Defined.


(** ** The script's runs *)

Section Runs.

Variable exec_module : string -> exn + py_module.

(** X3. A generation leaves every path other than its five output
    files as it found it. *)
Theorem generation_keeps_other_files (w : world) (p : string) :
  p ∉ output_files ->
  fs (after (script exec_module ClickGenerate) w) !! p = fs w !! p.
Proof.
  intros Hp. unfold after. rewrite script_generate. cbn [fst fs].
  unfold generated_files, output_files in *.
  rewrite !not_elem_of_cons in Hp.
  destruct Hp as (Hreq & Hdesign & Hcode & Htest & Htrace & _).
  now rewrite !lookup_insert_ne by congruence.
Qed.

(** X5. Before any generation (session flag unset) a run of the
    script with a press that is not the generate button, or with no
    press, draws nothing of the verification section (neither of its
    two subheaders, no announcement, no result line), raises nothing
    and changes neither the files, the flag nor the log: no verifier
    runs, whatever the interpreter. *)
Theorem verifiers_need_generation (c : click) (files : gmap string file)
    (out : list line) (page : list widget) :
  c <> ClickGenerate ->
  let run := script exec_module c (World files false out page) in
  run.2 = inr tt
  /\ fs run.1 = files
  /\ files_created run.1 = false
  /\ stdout run.1 = out
  /\ verdict_marks (ui run.1) = []
  /\ (Subheader "Code Execution Verification" ∉ ui run.1)
  /\ (Subheader "Test Case Execution Verification" ∉ ui run.1)
  /\ (Info "Executing functions from `Aero_SRC_A999_FPLN.py`..." ∉ ui run.1)
  /\ (Info "Simulating test case execution..." ∉ ui run.1).
Proof.
  intros Hc. cbv zeta.
  assert (Hrun : script exec_module c (World files false out page)
                 = (World files false out [], inr tt))
    by (destruct c; [reflexivity | congruence | reflexivity..]).
  rewrite Hrun. cbn [fst snd fs files_created stdout ui].
  repeat split; apply not_elem_of_nil.
Qed.

End Runs.

Lemma generation_keeps_other_files_witness :
  ("notes.txt" ∉ output_files)
  /\ fs (after (script failing_interpreter ClickGenerate)
           (World {["notes.txt" := Source "keep"]} false [] [])) !! "notes.txt"
     = Some (Source "keep").
Proof.
  assert (Hp : "notes.txt" ∉ output_files).
  { unfold output_files. rewrite !not_elem_of_cons.
    repeat split; try (vm_compute; congruence). apply not_elem_of_nil. }
  split; [exact Hp |].
  rewrite (generation_keeps_other_files failing_interpreter _ "notes.txt" Hp).
  reflexivity.
Defined.

Lemma verifiers_need_generation_witness :
  ClickRunCode <> ClickGenerate
  /\ (script faithful_interpreter ClickRunCode (World ∅ false [] [])).2 = inr tt
  /\ fs (script faithful_interpreter ClickRunCode (World ∅ false [] [])).1 = ∅.
Proof.
  split; [discriminate |].
  destruct (verifiers_need_generation faithful_interpreter ClickRunCode ∅ [] []
              ltac:(discriminate)) as (Hret & Hfs & _).
  split; [exact Hret | exact Hfs].
Defined.

(** ** More on the functions of the generated file *)

Section GeneratedCodeMore.

Lemma all_strs_forallb (items : list value) :
  all_strs items = None
  <-> forallb (fun item => match item with VStr _ => true | _ => false end) items
      = false.
Proof.
  induction items as [| item items IH]; [split; discriminate |].
  destruct item; cbn; try (split; [reflexivity | reflexivity]).
  destruct (all_strs items) as [strs |]; cbn.
  - split; [discriminate |]. intros Hf. apply IH in Hf. discriminate.
  - split; [intros _; now apply IH | reflexivity].
Qed.

(** X10. The outcome of [validate_flight_plan] depends on the route
    alone: two plans that both carry an ['id'] and have the same
    ['route'] entry (or both lack it) give the same result or the same
    exception, whatever their ids and their other entries. *)
Theorem validation_depends_on_route_only
    (plan plan' : gmap string value) (w w' : world) :
  is_Some (plan !! "id") ->
  is_Some (plan' !! "id") ->
  plan !! "route" = plan' !! "route" ->
  returned (validate_flight_plan plan) w = returned (validate_flight_plan plan') w'.
Proof.
  intros [i Hi] [i' Hi'] Hroute.
  now rewrite !validate_flight_plan_returned, Hi, Hi', Hroute.
Qed.

(** X11. The three generated functions only print: whatever they are
    given, and whether they return or raise, they leave the files, the
    session flag and the page as they were. *)
Theorem generated_functions_only_print
    (departure arrival path : value) (plan : gmap string value) (w : world) :
  let w1 := after (calculate_optimal_path departure arrival) w in
  let w2 := after (validate_flight_plan plan) w in
  let w3 := after (get_route_weather path) w in
  (fs w1 = fs w /\ files_created w1 = files_created w /\ ui w1 = ui w)
  /\ (fs w2 = fs w /\ files_created w2 = files_created w /\ ui w2 = ui w)
  /\ (fs w3 = fs w /\ files_created w3 = files_created w /\ ui w3 = ui w).
Proof.
  cbv zeta. split; [repeat split |]. split.
  - unfold after, validate_flight_plan, mbind, py_bind, lift, getitem.
    destruct (plan !! "id"); [| repeat split]. cbn.
    destruct (plan !! "route") as [route |]; [| repeat split]. cbn.
    destruct (str_in "NFZ_01" route) as [e | []]; repeat split.
  - unfold after, get_route_weather, mbind, py_bind, lift.
    destruct (str_join " -> " path); repeat split.
Qed.

(** X12. Among the arguments of the kinds of [value] (None, a
    boolean, an integer, a string, a list of such values),
    [get_route_weather] returns, and then always the same three-entry
    dictionary, exactly for a string or a list of strings (the empty
    list included); for None, a boolean, an integer or a list with an
    element that is not a string the join of the log line raises
    [TypeError] and nothing is printed.  Other iterables of strings
    (tuples, sets, dictionaries) are not values of the model. *)
Theorem route_weather_by_argument (path : value) (w : world) :
  returned (get_route_weather path) w
  = (if is_str_sequence path then inr weather_summary else inl TypeError)
  /\ (is_str_sequence path = false -> after (get_route_weather path) w = w).
Proof.
  rewrite get_route_weather_returned.
  unfold after, get_route_weather, mbind, py_bind, lift.
  destruct path as [| b | n | s | items]; cbn [str_join is_str_sequence];
    try (split; [reflexivity | intros _; now destruct w]).
  - split; [reflexivity | discriminate].
  - destruct (all_strs items) as [strs |] eqn:Hall.
    + destruct (forallb _ items) eqn:Hf.
      * split; [reflexivity | discriminate].
      * apply all_strs_forallb in Hf. congruence.
    + apply all_strs_forallb in Hall. rewrite Hall.
      split; [reflexivity | intros _; now destruct w].
Qed.

End GeneratedCodeMore.

Lemma validation_depends_on_route_only_witness :
  is_Some (plan_a !! "id")
  /\ is_Some (plan_b !! "id")
  /\ plan_a !! "route" = plan_b !! "route"
  /\ returned (validate_flight_plan plan_a) empty_world
     = returned (validate_flight_plan plan_b) empty_world.
Proof.
  assert (Ha : is_Some (plan_a !! "id")) by (eexists; reflexivity).
  assert (Hb : is_Some (plan_b !! "id")) by (eexists; reflexivity).
  assert (Hr : plan_a !! "route" = plan_b !! "route") by reflexivity.
  split; [exact Ha |]. split; [exact Hb |]. split; [exact Hr |].
  exact (validation_depends_on_route_only plan_a plan_b empty_world empty_world
           Ha Hb Hr).
Defined.

(** ** The code verifier *)

Section CodeVerifier.

Variable exec_module : string -> exn + py_module.

Lemma import_present (files : gmap string file) (text : string)
    (created : bool) (out : list line) (page : list widget) :
  files !! code_path = Some (Source text) ->
  import_generated_code exec_module (World files created out page)
  = (World files created out page, exec_module text).
Proof.
  intros Hfile. unfold import_generated_code. cbn [fs].
  change (path_join OUTPUT_DIR CODE_FILE_NAME) with code_path.
  now rewrite Hfile.
Qed.

Lemma script_run_code_unfold (files : gmap string file) (out : list line)
    (page : list widget) :
  script exec_module ClickRunCode (World files true out page)
  = (run_code exec_module ;;
     show (Subheader "Test Case Execution Verification") ;;
     mret tt)
      (World files true out [Subheader "Code Execution Verification"]).
Proof. reflexivity. Qed.

(** X8. With the session flag set and no file at the code path, a
    press on the code button raises [FileNotFoundError] after the
    announcement: no check line is shown, the files are as before and
    the interpreter is not asked anything. *)
Theorem code_verifier_without_file (files : gmap string file)
    (out : list line) (page : list widget) :
  files !! code_path = None ->
  script exec_module ClickRunCode (World files true out page)
  = (World files true out
       [ Subheader "Code Execution Verification";
         Info "Executing functions from `Aero_SRC_A999_FPLN.py`..." ],
     inl FileNotFoundError).
Proof.
  intros Hfile. rewrite script_run_code_unfold.
  erewrite bind_raise; [reflexivity |].
  unfold run_code. erewrite bind_value by reflexivity.
  erewrite bind_raise; [reflexivity |].
  unfold import_generated_code. cbn [fs].
  change (path_join OUTPUT_DIR CODE_FILE_NAME) with code_path.
  now rewrite Hfile.
Qed.

(** X13. When the interpreter rejects the stored text with an
    exception (as for a text that does not parse), the exception is
    not caught: the press raises it right after the announcement, and
    no check line is shown. *)
Theorem code_verifier_import_error (files : gmap string file) (text : string)
    (e : exn) (out : list line) (page : list widget) :
  files !! code_path = Some (Source text) ->
  exec_module text = inl e ->
  let run := script exec_module ClickRunCode (World files true out page) in
  run.2 = inl e
  /\ ui run.1
     = [ Subheader "Code Execution Verification";
         Info "Executing functions from `Aero_SRC_A999_FPLN.py`..." ]
  /\ verdict_marks (ui run.1) = [].
Proof.
  intros Hfile Hexec. cbv zeta.
  assert (Hrun : script exec_module ClickRunCode (World files true out page)
    = (World files true out
         [ Subheader "Code Execution Verification";
           Info "Executing functions from `Aero_SRC_A999_FPLN.py`..." ],
       inl e)).
  { rewrite script_run_code_unfold.
    erewrite bind_raise; [reflexivity |].
    unfold run_code. erewrite bind_value by reflexivity.
    erewrite bind_raise; [reflexivity |].
    rewrite (import_present _ text) by exact Hfile. now rewrite Hexec. }
  rewrite Hrun. repeat split.
Qed.

Lemma verdict_marks_app (a b : list widget) :
  verdict_marks (a ++ b) = verdict_marks a ++ verdict_marks b.
Proof. unfold verdict_marks. apply flat_map_app. Qed.


Ltac run_calls :=
  lazy -[has_key getitem substring_of verdict_marks last app
         mod_calculate_optimal_path mod_validate_flight_plan mod_get_route_weather
         path_value insert empty].

Lemma run_code_printing (files : gmap string file) (text : string)
    (m : py_module) (path : list string) (is_valid : bool)
    (violations : list string) (weather : gmap string string)
    (l1 l2 l3 : list line) (out : list line) :
  files !! code_path = Some (Source text) ->
  exec_module text = inr m ->
  prints_and_returns (mod_calculate_optimal_path m (VStr "JFK") (VStr "LAX")) l1 path ->
  prints_and_returns (mod_validate_flight_plan m invalid_plan) l2 (is_valid, violations) ->
  prints_and_returns (mod_get_route_weather m (path_value path)) l3 weather ->
  is_valid = true \/ violations <> [] ->
  exists page log,
    run_code exec_module
      (World files true out [Subheader "Code Execution Verification"])
    = (World files true log page, inr tt)
    /\ log = l1 ++ l2 ++ l3
    /\ verdict_marks page
       = [ bool_decide (path <> []);
           negb is_valid && match violations with
                            | v0 :: _ => substring_of "No-Fly Zone" v0
                            | [] => false
                            end;
           has_key "hazards" weather ]
    /\ last page = Some (Code log).
Proof.
  intros Hfile Hexec H1 H2 H3 Hguard.
  assert (Hsome : forall h, weather !! "hazards" = Some h ->
            has_key "hazards" weather = true /\ getitem weather "hazards" = inr h).
  { intros h Hh. unfold has_key, getitem. rewrite Hh. split; reflexivity. }
  assert (Hnone : weather !! "hazards" = None -> has_key "hazards" weather = false).
  { intros Hh. unfold has_key. rewrite Hh. reflexivity. }
  unfold run_code.
  erewrite bind_value by reflexivity.
  erewrite bind_value
    by (rewrite (import_present _ text) by exact Hfile; rewrite Hexec; reflexivity).
  unfold prints_and_returns, invalid_plan, add_log in H1, H2, H3.
  destruct path as [| p ps];
    (destruct is_valid;
       [| destruct violations as [| v0 vs];
          [destruct Hguard; congruence
          | destruct (substring_of "No-Fly Zone" v0) eqn:Hs]]);
    (destruct (weather !! "hazards") as [h |] eqn:Hw;
      [destruct (Hsome h eq_refl) as [Hk Hg] | pose proof (Hnone eq_refl) as Hk]);
    run_calls; rewrite H1;
    run_calls; rewrite H2;
    run_calls; rewrite ?Hs;
    run_calls; rewrite H3;
    run_calls; rewrite ?Hk;
    run_calls; rewrite ?Hg;
    run_calls;
    do 2 eexists; (split; [reflexivity |]);
    (split; [cbn; now rewrite <- app_assoc |]);
    rewrite ?Hk; split; reflexivity.
Qed.

(** X6. Take any module the interpreter gives for the stored text
    whose three functions, on the verifier's calls, only print and
    return a path, a pair (status, violations) with a true status or
    at least one violation, and a dictionary.  A press on the code
    button then ends normally and its three result lines say: success
    for the path exactly when it is not empty; success for the plan
    exactly when the status is false and the first violation contains
    "No-Fly Zone"; success for the weather exactly when the dictionary
    has the key 'hazards'.  The log box shows what the three calls
    printed, in order, and nothing printed before the press. *)
Theorem code_verifier_verdicts (files : gmap string file) (text : string)
    (m : py_module) (path : list string) (is_valid : bool)
    (violations : list string) (weather : gmap string string)
    (l1 l2 l3 : list line) (out : list line) (page : list widget) :
  files !! code_path = Some (Source text) ->
  exec_module text = inr m ->
  prints_and_returns (mod_calculate_optimal_path m (VStr "JFK") (VStr "LAX")) l1 path ->
  prints_and_returns (mod_validate_flight_plan m invalid_plan) l2 (is_valid, violations) ->
  prints_and_returns (mod_get_route_weather m (path_value path)) l3 weather ->
  is_valid = true \/ violations <> [] ->
  let run := script exec_module ClickRunCode (World files true out page) in
  run.2 = inr tt
  /\ verdict_marks (ui run.1)
     = [ bool_decide (path <> []);
         negb is_valid && match violations with
                          | v0 :: _ => substring_of "No-Fly Zone" v0
                          | [] => false
                          end;
         has_key "hazards" weather ]
  /\ (Code (l1 ++ l2 ++ l3) ∈ ui run.1).
Proof.
  intros Hfile Hexec H1 H2 H3 Hguard. cbv zeta.
  destruct (run_code_printing files text m path is_valid violations weather
              l1 l2 l3 out Hfile Hexec H1 H2 H3 Hguard)
    as (shown & log & Hrun & -> & Hmarks & Hlast).
  rewrite script_run_code_unfold.
  erewrite bind_value by exact Hrun.
  unfold mbind, py_bind, show, mret, py_ret. cbn [fst snd fs files_created stdout ui].
  rewrite verdict_marks_app, Hmarks.
  split; [reflexivity |]. split; [reflexivity |].
  apply elem_of_app. left.
  apply last_Some in Hlast as [front ->]. apply elem_of_app. right.
  apply list_elem_of_singleton. reflexivity.
Qed.


End CodeVerifier.

Lemma code_verifier_without_file_witness :
  (∅ : gmap string file) !! code_path = None
  /\ script faithful_interpreter ClickRunCode (World ∅ true [] [])
     = (World ∅ true []
          [ Subheader "Code Execution Verification";
            Info "Executing functions from `Aero_SRC_A999_FPLN.py`..." ],
        inl FileNotFoundError).
Proof.
  split; [reflexivity |].
  apply (code_verifier_without_file faithful_interpreter ∅ [] []). reflexivity.
Defined.

Lemma code_verifier_import_error_witness :
  ({[code_path := Source "def ("]} : gmap string file) !! code_path
  = Some (Source "def (")
  /\ failing_interpreter "def (" = inl ValueError
  /\ (script failing_interpreter ClickRunCode
        (World {[code_path := Source "def ("]} true [] [])).2 = inl ValueError.
Proof.
  assert (Hfile : ({[code_path := Source "def ("]} : gmap string file) !! code_path
                  = Some (Source "def (")) by reflexivity.
  split; [exact Hfile |]. split; [reflexivity |].
  destruct (code_verifier_import_error failing_interpreter
              {[code_path := Source "def ("]} "def (" ValueError [] []
              Hfile eq_refl) as (Hret & _).
  exact Hret.
Defined.

Lemma calculate_optimal_path_prints (departure arrival : value) :
  prints_and_returns (calculate_optimal_path departure arrival)
    [ [Lit "Calculating optimal path from "; Interp departure; Lit " to ";
       Interp arrival; Lit "..."];
      [Lit "Path calculated successfully."] ]
    ["WPT_A"; "WPT_B"; "WPT_C"].
Proof.
  intros w. unfold calculate_optimal_path, mbind, py_bind, print, mret, py_ret, add_log.
  cbn [fs files_created stdout ui]. now rewrite <- app_assoc.
Qed.

Lemma validate_invalid_plan_prints :
  prints_and_returns (validate_flight_plan invalid_plan) plan_log
    (false, ["Violation: No-Fly Zone NFZ_01"]).
Proof.
  intros w. unfold validate_flight_plan, mbind, py_bind, lift.
  change (getitem invalid_plan "id") with (inr (VStr "FP001") : exn + value).
  cbv beta iota.
  change (getitem invalid_plan "route")
    with (inr (VList [VStr "WPT_X"; VStr "NFZ_01"; VStr "WPT_Y"]) : exn + value).
  unfold print, mret, py_ret, add_log, plan_log.
  cbn [fs files_created stdout ui str_in existsb is_str String.eqb Ascii.eqb
       Bool.eqb orb].
  now rewrite <- app_assoc.
Qed.

Lemma get_route_weather_prints :
  prints_and_returns
    (get_route_weather (path_value ["WPT_A"; "WPT_B"; "WPT_C"]))
    weather_log weather_summary.
Proof.
  intros w. unfold get_route_weather, mbind, py_bind, lift.
  change (str_join " -> " (path_value ["WPT_A"; "WPT_B"; "WPT_C"]))
    with (inr "WPT_A -> WPT_B -> WPT_C" : exn + string).
  unfold print, mret, py_ret, add_log, weather_log.
  cbn [fs files_created stdout ui]. now rewrite <- app_assoc.
Qed.

Lemma code_verifier_verdicts_witness :
  let run := script faithful_interpreter ClickRunCode (World code_only true [] []) in
  code_only !! code_path = Some (Source code_content)
  /\ faithful_interpreter code_content = inr generated_code
  /\ (false = true \/ ["Violation: No-Fly Zone NFZ_01"] <> [])
  /\ run.2 = inr tt
  /\ verdict_marks (ui run.1) = [true; true; true]
  /\ (Code (path_log ++ plan_log ++ weather_log) ∈ ui run.1).
Proof.
  cbv zeta.
  assert (Hfile : code_only !! code_path = Some (Source code_content))
    by reflexivity.
  assert (Hguard : false = true \/ ["Violation: No-Fly Zone NFZ_01"] <> [])
    by (right; discriminate).
  split; [exact Hfile |]. split; [reflexivity |]. split; [exact Hguard |].
  exact (code_verifier_verdicts faithful_interpreter code_only code_content
           generated_code ["WPT_A"; "WPT_B"; "WPT_C"] false
           ["Violation: No-Fly Zone NFZ_01"] weather_summary
           path_log plan_log weather_log [] []
           Hfile eq_refl
           (calculate_optimal_path_prints (VStr "JFK") (VStr "LAX"))
           validate_invalid_plan_prints get_route_weather_prints Hguard).
Defined.


Lemma code_verification_succeeds_witness :
  faithful_interpreter code_content = inr generated_code
  /\ returned (script faithful_interpreter ClickRunCode)
       (after (script faithful_interpreter ClickGenerate) empty_world) = inr tt
  /\ ui (after (script faithful_interpreter ClickRunCode)
           (after (script faithful_interpreter ClickGenerate) empty_world))
     = code_page.
Proof.
  split; [reflexivity |].
  apply (code_verification_succeeds faithful_interpreter empty_world).
  reflexivity.
Defined.
